(** * IT equipment entry form: validation, sanitisation and submission

    A shallow embedding of
    [client/src/components/it-equipment/it-equipment-form.tsx].

    The component is glue over three collaborators whose code is not part of
    the repository: the JavaScript string primitives ([length], [trim],
    [||], [?.]), the zod schema combinators ([z.object], [z.string().min])
    and react-hook-form ([useForm], [handleSubmit], [reset],
    [formState.isValid]).  Each of them is modelled in a module of its own,
    after its documented behaviour; the component itself is translated
    line by line on top of them. *)

From Stdlib Require Import Ascii.
From Stdlib Require String.
From stdpp Require Import base list strings gmap.


(** ** JavaScript strings *)

Module Js.

(** A JavaScript string is a sequence of UTF-16 code units; [s.length] is
    the number of code units. *)
Definition code_unit := N.
Abbreviation jsstring := (list code_unit).

(** A string literal of the source, as code units (the literals of this
    file are all ASCII). *)
Definition lit (s : string) : jsstring :=
  N_of_ascii <$> String.list_ascii_of_string s.

(** ECMAScript [WhiteSpace] and [LineTerminator] code points, the ones
    [String.prototype.trim] strips.  All of them are in the basic
    multilingual plane, so stripping code units and stripping code points
    agree. *)
Definition isWhiteSpace (c : code_unit) : bool :=
  ((c =? 0x0009) || (c =? 0x000B) || (c =? 0x000C) || (c =? 0x0020) ||
   (c =? 0x00A0) || (c =? 0xFEFF) || (c =? 0x1680) ||
   ((0x2000 <=? c) && (c <=? 0x200A)) ||
   (c =? 0x202F) || (c =? 0x205F) || (c =? 0x3000))%N.

Definition isLineTerminator (c : code_unit) : bool :=
  ((c =? 0x000A) || (c =? 0x000D) || (c =? 0x2028) || (c =? 0x2029))%N.

Definition isStrWhiteSpaceChar (c : code_unit) : bool :=
  isWhiteSpace c || isLineTerminator c.

Fixpoint trimStart (s : jsstring) : jsstring :=
  match s with
  | [] => []
  | c :: s' => if isStrWhiteSpaceChar c then trimStart s' else s
  end.

Definition trimEnd (s : jsstring) : jsstring :=
  reverse (trimStart (reverse s)).

(** [s.trim()] *)
Definition trim (s : jsstring) : jsstring := trimEnd (trimStart s).

(** A value that is a string or [undefined]: what a field of a
    [Partial<ITEquipmentFormValues>] holds at run time. *)
Inductive value :=
  | undefined
  | str (s : jsstring).

Definition ToBoolean (v : value) : bool :=
  match v with
  | undefined => false
  | str [] => false
  | str (_ :: _) => true
  end.

(** [v || ""]: the left operand when it is truthy, the empty string
    otherwise.  A truthy operand is a string here, so the result is one. *)
Definition or_empty (v : value) : jsstring :=
  match v with
  | undefined => []
  | str s => if ToBoolean v then s else []
  end.

(** [v?.trim()]: [undefined] short-circuits the call. *)
Definition opt_trim (v : value) : value :=
  match v with
  | undefined => undefined
  | str s => str (trim s)
  end.

End Js.

Import Js.

(** ** The form's value object *)

(** [ITEquipmentFormValues] is an object with six keys; [Values A] is such
    an object with fields of type [A].  The draft of the form is a
    [Values jsstring], the caller's [Partial<ITEquipmentFormValues>] a
    [Values value], the schema a [Values] of string checks. *)
Record Values (A : Type) := mkValues {
  name : A;
  category : A;
  totalQuantity : A;
  model : A;
  location : A;
  dateAcquired : A;
}.
Arguments mkValues {A}.
Arguments name {A}.
Arguments category {A}.
Arguments totalQuantity {A}.
Arguments model {A}.
Arguments location {A}.
Arguments dateAcquired {A}.

Abbreviation ITEquipmentFormValues := (Values jsstring).

Inductive Field :=
  | Name | Category | TotalQuantity | Model | Location | DateAcquired.

#[global] Instance Field_eq_dec : EqDecision Field.
Proof. solve_decision. Defined.

(** The keys in the order the object literal declares them. *)
Definition fields : list Field :=
  [Name; Category; TotalQuantity; Model; Location; DateAcquired].

Definition key (f : Field) : string :=
  match f with
  | Name => "name"
  | Category => "category"
  | TotalQuantity => "totalQuantity"
  | Model => "model"
  | Location => "location"
  | DateAcquired => "dateAcquired"
  end.

Definition get {A} (f : Field) (v : Values A) : A :=
  match f with
  | Name => name v
  | Category => category v
  | TotalQuantity => totalQuantity v
  | Model => model v
  | Location => location v
  | DateAcquired => dateAcquired v
  end.

Definition set {A} (f : Field) (x : A) (v : Values A) : Values A :=
  match f with
  | Name => mkValues x (category v) (totalQuantity v) (model v) (location v) (dateAcquired v)
  | Category => mkValues (name v) x (totalQuantity v) (model v) (location v) (dateAcquired v)
  | TotalQuantity => mkValues (name v) (category v) x (model v) (location v) (dateAcquired v)
  | Model => mkValues (name v) (category v) (totalQuantity v) x (location v) (dateAcquired v)
  | Location => mkValues (name v) (category v) (totalQuantity v) (model v) x (dateAcquired v)
  | DateAcquired => mkValues (name v) (category v) (totalQuantity v) (model v) (location v) x
  end.

Definition vmap {A B} (g : A → B) (v : Values A) : Values B :=
  mkValues (g (name v)) (g (category v)) (g (totalQuantity v))
           (g (model v)) (g (location v)) (g (dateAcquired v)).

(** ** zod: string checks, object schemas, issues *)

Module Zod.

(** [z.string().min(value, message)] *)
Record ZodString := string_min {
  min_value : nat;
  min_message : string;
}.

(** An issue carries the path of the offending value and a message. *)
Record ZodIssue := mkIssue {
  path : list string;
  message : string;
}.

(** The [min] check of a string schema: the issue is raised when
    [input.length < value]. *)
Definition parseString (c : ZodString) (p : list string) (input : jsstring)
  : list ZodIssue :=
  if (length input <? min_value c)%nat then [mkIssue p (min_message c)] else [].

(** An object schema parses every key of its shape, in the order of the
    shape, at the path of that key, and gathers the issues. *)
Definition parseObject (shape : Values ZodString) (input : ITEquipmentFormValues)
  : list ZodIssue :=
  concat ((λ f, parseString (get f shape) [key f] (get f input)) <$> fields).

Inductive SafeParseResult :=
  | success (data : ITEquipmentFormValues)
  | failure (issues : list ZodIssue).

(** The string schemas have no transform: the parsed data is the input. *)
Definition safeParse (shape : Values ZodString) (input : ITEquipmentFormValues)
  : SafeParseResult :=
  match parseObject shape input with
  | [] => success input
  | issues => failure issues
  end.

End Zod.

Import Zod.

(** ** The resolver of @hookform/resolvers/zod *)

Module Resolver.

(** What a resolver returns: the values to submit and the field errors,
    keyed by the dotted path of the field. *)
Record ResolverResult := mkResult {
  values : Values value;
  errors : gmap string string;
}.

(** The empty object [{}]: every key reads [undefined]. *)
Definition empty_object : Values value :=
  mkValues undefined undefined undefined undefined undefined undefined.

(** Issues to field errors: the first issue of a path wins. *)
Definition parseErrorSchema (issues : list ZodIssue) : gmap string string :=
  foldl (λ errs i,
           let _path := String.concat "." (path i) in
           match errs !! _path with
           | Some _ => errs
           | None => <[_path := message i]> errs
           end) ∅ issues.

Definition zodResolver (shape : Values ZodString) (vals : ITEquipmentFormValues)
  : ResolverResult :=
  match safeParse shape vals with
  | success data => mkResult (vmap str data) ∅
  | failure issues => mkResult empty_object (parseErrorSchema issues)
  end.

End Resolver.

Import Resolver.

(** ** react-hook-form *)

Module HookForm.

Definition isEmptyObject (errs : gmap string string) : bool :=
  bool_decide (errs = ∅).

(** The part of the form control the component reads and writes. *)
Record Control := mkControl {
  _formValues : ITEquipmentFormValues;
  _defaultValues : ITEquipmentFormValues;
  formErrors : gmap string string;
}.

Section WithResolver.

Variable resolver : ITEquipmentFormValues → ResolverResult.

(** [useForm({ resolver, defaultValues, mode: "onChange" })] at mount: the
    default values are kept for [reset] and are the first draft. *)
Definition useForm (defaults : ITEquipmentFormValues) : Control :=
  mkControl defaults defaults ∅.

(** [formState.isValid]: the resolver, run on the whole draft, reports no
    error. *)
Definition isValid (c : Control) : bool :=
  isEmptyObject (errors (resolver (_formValues c))).

(** The change handler of a registered field in mode [onChange]: the value
    is stored, the resolver is run, and the error of the changed field is
    set or cleared. *)
Definition onChange (f : Field) (v : jsstring) (c : Control) : Control :=
  let vals := set f v (_formValues c) in
  let errs := errors (resolver vals) in
  mkControl vals (_defaultValues c)
    (match errs !! key f with
     | Some m => <[key f := m]> (formErrors c)
     | None => delete (key f) (formErrors c)
     end).

(** [form.reset()] without arguments: back to the default values, errors
    cleared. *)
Definition reset (c : Control) : Control :=
  mkControl (_defaultValues c) (_defaultValues c) ∅.

(** [form.handleSubmit(onValid)]: the resolver is run again; [onValid]
    receives the resolver's values when there is no error and is not
    called otherwise.  The calls a handler makes to the outside are the
    list it returns. *)
Definition handleSubmit {X} (onValid : Values value → list X) (c : Control)
  : Control * list X :=
  let r := resolver (_formValues c) in
  if isEmptyObject (errors r)
  then (mkControl (_formValues c) (_defaultValues c) ∅, onValid (values r))
  else (mkControl (_formValues c) (_defaultValues c) (errors r), []).

End WithResolver.

End HookForm.

Import HookForm.

(** ** The component [ITEquipmentForm] *)

Definition itEquipmentFormSchema : Values ZodString := {|
  name := string_min 2 "Name must be at least 2 characters";
  category := string_min 1 "Category is required";
  totalQuantity := string_min 1 "Total quantity is required";
  model := string_min 1 "Model is required";
  location := string_min 1 "Location is required";
  dateAcquired := string_min 1 "Date acquired is required";
|}.

(** The props.  [onSubmit] is the caller's; the component only calls it,
    so it appears below as the calls made ([Call]) and not as a field. *)
Record ITEquipmentFormProps := mkProps {
  isLoading : bool;
  defaultValues : option (Values value);
}.

Inductive Call :=
  | onSubmit (values : ITEquipmentFormValues).

(** The default of the destructured [defaultValues] parameter. *)
Definition defaultValues_default : Values value := {|
  name := str (lit "");
  category := str (lit "");
  totalQuantity := str (lit "");
  model := str (lit "");
  location := str (lit "");
  dateAcquired := str (lit "");
|}.

(** The [defaultValues] handed to [useForm]. *)
Definition formDefaultValues (props : ITEquipmentFormProps) : ITEquipmentFormValues :=
  let defaultValues := default defaultValues_default (defaultValues props) in
  {| name := or_empty (name defaultValues);
     category := or_empty (category defaultValues);
     totalQuantity := or_empty (totalQuantity defaultValues);
     model := or_empty (model defaultValues);
     location := or_empty (location defaultValues);
     dateAcquired := or_empty (dateAcquired defaultValues) |}.

Definition resolver : ITEquipmentFormValues → ResolverResult :=
  zodResolver itEquipmentFormSchema.

(** The form control at mount. *)
Definition mount (props : ITEquipmentFormProps) : Control :=
  useForm (formDefaultValues props).

(** The component's own [handleSubmit]: trim, coerce, call [onSubmit]. *)
Definition sanitizedValues (values : Values value) : ITEquipmentFormValues := {|
  name := or_empty (opt_trim (name values));
  category := or_empty (opt_trim (category values));
  totalQuantity := or_empty (opt_trim (totalQuantity values));
  model := or_empty (opt_trim (model values));
  location := or_empty (opt_trim (location values));
  dateAcquired := or_empty (dateAcquired values);
|}.

Definition handleSubmit (values : Values value) : list Call :=
  [onSubmit (sanitizedValues values)].

(** What is rendered: the six inputs with their [FormMessage], and the two
    buttons. *)
Record Button := mkButton {
  disabled : bool;
  label : string;
}.

Record View := mkView {
  inputs : ITEquipmentFormValues;
  messages : Values (option string);
  resetButton : Button;
  submitButton : Button;
}.

Definition render (isLoading : bool) (form : Control) : View := {|
  inputs := _formValues form;
  messages := {|
    name := formErrors form !! key Name;
    category := formErrors form !! key Category;
    totalQuantity := formErrors form !! key TotalQuantity;
    model := formErrors form !! key Model;
    location := formErrors form !! key Location;
    dateAcquired := formErrors form !! key DateAcquired;
  |};
  resetButton := mkButton isLoading "Reset";
  submitButton :=
    mkButton (isLoading || negb (isValid resolver form))
             (if isLoading then "Creating..." else "Create Equipment");
|}.

(** ** Events *)

(** What can happen to the mounted form: the user edits a field, clicks
    one of the two buttons, or the form's submit event fires (a click on
    the enabled submit button fires it). *)
Inductive Event :=
  | InputChange (f : Field) (v : jsstring)
  | ClickReset
  | ClickSubmit
  | FormSubmit.

(** The form control together with the calls made to [onSubmit] so far. *)
Record World := mkWorld {
  form : Control;
  calls : list Call;
}.

Definition formSubmit (w : World) : World :=
  let '(form', cs) := HookForm.handleSubmit resolver handleSubmit (form w) in
  mkWorld form' (calls w ++ cs).

(** One event, under the [isLoading] the caller passes at that time. *)
Definition step (isLoading : bool) (e : Event) (w : World) : World :=
  let view := render isLoading (form w) in
  match e with
  | InputChange f v => mkWorld (onChange resolver f v (form w)) (calls w)
  | ClickReset =>
      if disabled (resetButton view) then w
      else mkWorld (reset (form w)) (calls w)
  | ClickSubmit =>
      if disabled (submitButton view) then w else formSubmit w
  | FormSubmit => formSubmit w
  end.

Definition run (es : list (bool * Event)) (w : World) : World :=
  foldl (λ w e, step e.1 e.2 w) w es.

Definition start (props : ITEquipmentFormProps) : World :=
  mkWorld (mount props) [].

(** ** The constraints of the data model, as the specification words them *)

(** Section 3 of the specification: [name] has length at least 2 after
    trimming, [category], [totalQuantity], [model] and [location] are
    non-empty after trimming, [dateAcquired] is non-empty. *)
Definition spec_constraint (f : Field) (d : ITEquipmentFormValues) : Prop :=
  match f with
  | Name => 2 ≤ length (trim (name d))
  | DateAcquired => dateAcquired d ≠ []
  | _ => trim (get f d) ≠ []
  end.

Definition spec_submittable (d : ITEquipmentFormValues) : Prop :=
  ∀ f, spec_constraint f d.

(** The schema accepts a field of a draft when validation reports no error
    for the key of that field. *)
Definition accepts (f : Field) (d : ITEquipmentFormValues) : Prop :=
  errors (resolver d) !! key f = None.

(** The schema accepts a draft when parsing it succeeds. *)
Definition valid (d : ITEquipmentFormValues) : Prop :=
  safeParse itEquipmentFormSchema d = success d.

(** The raw-length reading of the schema: what [min] compares is the
    length of the field as typed. *)
Definition raw_lengths_ok (d : ITEquipmentFormValues) : Prop :=
  2 ≤ length (name d) ∧ category d ≠ [] ∧ totalQuantity d ≠ [] ∧
  model d ≠ [] ∧ location d ≠ [] ∧ dateAcquired d ≠ [].

(** The caller's value of a field when one was supplied, the empty string
    otherwise. *)
Definition supplied_or_empty (defaultValues : option (Values value)) (f : Field)
  : jsstring :=
  match defaultValues with
  | None => []
  | Some partial =>
      match get f partial with
      | undefined => []
      | str s => s
      end
  end.

(** ** Example drafts *)

(** The fully valid draft of the specification's examples. *)
Definition dell_laptop : ITEquipmentFormValues := {|
  name := lit "Dell Laptop";
  category := lit "Laptop";
  totalQuantity := lit "5";
  model := lit "Latitude 5520";
  location := lit "Office A";
  dateAcquired := lit "2024-01-15";
|}.

(** The same draft with the name a space followed by one character. *)
Definition padded_name : ITEquipmentFormValues := set Name (lit " A") dell_laptop.

(** The same draft with a category of one space. *)
Definition blank_category : ITEquipmentFormValues := set Category (lit " ") dell_laptop.

(** The same draft with the name the single character A. *)
Definition short_name : ITEquipmentFormValues := set Name (lit "A") dell_laptop.

(** The user fills the six inputs with the fields of [d], no submission
    being in flight. *)
Definition typing (d : ITEquipmentFormValues) : list (bool * Event) :=
  (λ f, (false, InputChange f (get f d))) <$> fields.

(** The mounted form, without defaults, after the user typed [d]. *)
Definition typed (d : ITEquipmentFormValues) : World :=
  run (typing d) (start (mkProps false None)).

(** ** Vocabulary for the properties of sanitisation and validation *)

(** The five fields [handleSubmit] trims. *)
Definition text_fields : list Field :=
  [Name; Category; TotalQuantity; Model; Location].

(** The inputs rendered without a [type] attribute, whose change event
    delivers the text as entered.  The quantity input has [type="number"]
    and the date input [type="date"]: what their change events deliver is
    decided by the browser and is not modelled. *)
Definition plain_text_inputs : list Field :=
  [Name; Category; Model; Location].

(** A string starts clean when it is empty or its first code unit is not
    white space, ends clean when the same holds of its last code unit, and
    is trimmed when it has white space at neither end. *)
Definition starts_clean (s : jsstring) : bool :=
  match s with
  | [] => true
  | c :: _ => negb (isStrWhiteSpaceChar c)
  end.

Definition ends_clean (s : jsstring) : bool := starts_clean (reverse s).

Definition trimmed (s : jsstring) : bool := starts_clean s && ends_clean s.

(** A field violates its check when it is shorter than the minimum. *)
Definition violated (f : Field) (d : ITEquipmentFormValues) : bool :=
  (length (get f d) <? min_value (get f itEquipmentFormSchema))%nat.

(** One entry per violated field, keyed by the field, with the message of
    its check. *)
Definition violations (d : ITEquipmentFormValues) : gmap string string :=
  list_to_map
    ((λ f, (key f, min_message (get f itEquipmentFormSchema))) <$>
     filter (λ f, violated f d = true) fields).

(** ** Proof automation *)

(** Case analysis on every length check in the goal. *)
Ltac split_checks :=
  repeat match goal with
  | |- context [ (length ?s <? ?n)%nat ] =>
      let E := fresh "E" in destruct (length s <? n)%nat eqn:E
  end.

(** ** Facts about the JavaScript primitives *)

Lemma trimStart_length (s : jsstring) : length (trimStart s) ≤ length s.
Proof.
  induction s as [|c s IH]; simpl; [lia|].
  destruct (isStrWhiteSpaceChar c); simpl; lia.
Qed.

Lemma trimEnd_length (s : jsstring) : length (trimEnd s) ≤ length s.
Proof.
  unfold trimEnd. rewrite length_reverse.
  etrans; [apply trimStart_length|]. by rewrite length_reverse.
Qed.

Lemma trim_length (s : jsstring) : length (trim s) ≤ length s.
Proof.
  unfold trim. etrans; [apply trimEnd_length|]. apply trimStart_length.
Qed.

Lemma trim_nonempty (s : jsstring) : trim s ≠ [] → s ≠ [].
Proof. intros H ->. by apply H. Qed.

Example trim_both_ends : trim (lit "  Dell Laptop  ") = lit "Dell Laptop".
Proof. reflexivity. Qed.

Example trim_keeps_inner_space : trim (lit "Office A") = lit "Office A".
Proof. reflexivity. Qed.

(** Tab, line feed, carriage return, no-break space and the byte order
    mark are stripped like the space. *)
Example trim_other_white_space :
  trim [0x09; 0x0A; 0x0D; 0xA0; 0xFEFF; 0x41; 0x2028; 0x3000]%N = lit "A".
Proof. reflexivity. Qed.

(** [s || ""] is [s] for every string [s]: the only falsy string is the
    empty one. *)
Lemma or_empty_str (s : jsstring) : or_empty (str s) = s.
Proof. by destruct s. Qed.

Lemma or_empty_opt_trim (v : value) :
  or_empty (opt_trim v) = match v with undefined => [] | str s => trim s end.
Proof. destruct v; [done|]. apply or_empty_str. Qed.

(** ** Facts about the resolver *)

(** A step of [parseErrorSchema] never removes a key, so the errors are
    empty only when there is no issue. *)
Lemma parseErrorSchema_step_nonempty (issues : list ZodIssue) (acc : gmap string string) :
  acc ≠ ∅ →
  foldl (λ errs i,
           let _path := String.concat "." (path i) in
           match errs !! _path with
           | Some _ => errs
           | None => <[_path := message i]> errs
           end) acc issues ≠ ∅.
Proof.
  revert acc. induction issues as [|i rest IH]; intros acc Hacc; simpl; [done|].
  apply IH. destruct (acc !! _) eqn:E; [done|]. apply insert_non_empty.
Qed.

Lemma parseErrorSchema_nonempty (issues : list ZodIssue) :
  parseErrorSchema issues = ∅ ↔ issues = [].
Proof.
  split; [|by intros ->].
  destruct issues as [|i rest]; [done|].
  unfold parseErrorSchema. cbn [foldl]. intros H. exfalso.
  revert H. apply parseErrorSchema_step_nonempty.
  cbv zeta. rewrite lookup_empty. apply insert_non_empty.
Qed.

(** The issues of a draft, key by key. *)
Lemma parseObject_eq (d : ITEquipmentFormValues) :
  parseObject itEquipmentFormSchema d =
    (if (length (name d) <? 2)%nat
     then [mkIssue ["name"] "Name must be at least 2 characters"] else []) ++
    (if (length (category d) <? 1)%nat
     then [mkIssue ["category"] "Category is required"] else []) ++
    (if (length (totalQuantity d) <? 1)%nat
     then [mkIssue ["totalQuantity"] "Total quantity is required"] else []) ++
    (if (length (model d) <? 1)%nat
     then [mkIssue ["model"] "Model is required"] else []) ++
    (if (length (location d) <? 1)%nat
     then [mkIssue ["location"] "Location is required"] else []) ++
    (if (length (dateAcquired d) <? 1)%nat
     then [mkIssue ["dateAcquired"] "Date acquired is required"] else []).
Proof. destruct d. unfold parseObject, parseString. simpl. by rewrite app_nil_r. Qed.

Lemma resolver_errors_lookup (f : Field) (d : ITEquipmentFormValues) :
  errors (resolver d) !! key f =
    if (length (get f d) <? min_value (get f itEquipmentFormSchema))%nat
    then Some (min_message (get f itEquipmentFormSchema)) else None.
Proof.
  unfold resolver, zodResolver, safeParse. rewrite parseObject_eq.
  destruct f; cbn [get itEquipmentFormSchema min_value min_message name category
    totalQuantity model location dateAcquired]; split_checks; vm_compute; reflexivity.
Qed.

(** Every reported error comes from an issue: its key is the dotted path of
    the issue and its message the issue's. *)
Lemma parseErrorSchema_lookup_Some (issues : list ZodIssue) (k m : string) :
  parseErrorSchema issues !! k = Some m →
  ∃ i, i ∈ issues ∧ k = String.concat "." (path i) ∧ m = message i.
Proof.
  unfold parseErrorSchema.
  assert (G : ∀ acc : gmap string string,
    foldl (λ errs i,
             let _path := String.concat "." (path i) in
             match errs !! _path with
             | Some _ => errs
             | None => <[_path := message i]> errs
             end) acc issues !! k = Some m →
    acc !! k = Some m ∨
    ∃ i, i ∈ issues ∧ k = String.concat "." (path i) ∧ m = message i).
  { induction issues as [|i rest IH]; intros acc; simpl; [by left|].
    intros H. apply IH in H as [H|(j & Hj & ? & ?)].
    - destruct (acc !! _) eqn:E; [by left|].
      destruct (decide (String.concat "." (path i) = k)) as [<-|Hne].
      + rewrite lookup_insert_eq in H. injection H as <-.
        right. exists i. split; [left|done].
      + rewrite lookup_insert_ne in H by done. by left.
    - right. exists j. split; [by right|done]. }
  intros H. apply G in H as [H|H]; [by rewrite lookup_empty in H|done].
Qed.

Lemma parseObject_issue (d : ITEquipmentFormValues) (i : ZodIssue) :
  i ∈ parseObject itEquipmentFormSchema d →
  ∃ f, path i = [key f] ∧ message i = min_message (get f itEquipmentFormSchema).
Proof.
  rewrite parseObject_eq. split_checks; rewrite ?app_nil_l, ?app_nil_r;
    rewrite ?elem_of_app, ?elem_of_cons, ?list_elem_of_singleton, ?elem_of_nil;
    intros H; decompose [or] H; subst; try done;
    first [ by exists Name | by exists Category | by exists TotalQuantity
          | by exists Model | by exists Location | by exists DateAcquired ].
Qed.

(** The errors of the resolver are keyed by the six fields and nothing
    else. *)
Lemma resolver_errors_keys (d : ITEquipmentFormValues) (k m : string) :
  errors (resolver d) !! k = Some m →
  ∃ f, k = key f ∧ m = min_message (get f itEquipmentFormSchema).
Proof.
  unfold resolver, zodResolver, safeParse.
  destruct (parseObject itEquipmentFormSchema d) as [|i0 rest] eqn:E; simpl.
  - by rewrite lookup_empty.
  - intros H. apply parseErrorSchema_lookup_Some in H as (i & Hi & -> & ->).
    rewrite <- E in Hi. apply parseObject_issue in Hi as (f & -> & ->).
    exists f. split; [|done]. by destruct f.
Qed.

Lemma resolver_errors_empty (d : ITEquipmentFormValues) :
  errors (resolver d) = ∅ ↔ parseObject itEquipmentFormSchema d = [].
Proof.
  unfold resolver, zodResolver, safeParse.
  destruct (parseObject itEquipmentFormSchema d) as [|i0 rest] eqn:E; simpl.
  - done.
  - by rewrite parseErrorSchema_nonempty.
Qed.

Lemma valid_parseObject (d : ITEquipmentFormValues) :
  valid d ↔ parseObject itEquipmentFormSchema d = [].
Proof.
  unfold valid, safeParse.
  destruct (parseObject itEquipmentFormSchema d); split; done.
Qed.

Lemma ltb_1_nonempty (s : jsstring) : (length s <? 1)%nat = false ↔ s ≠ [].
Proof. rewrite Nat.ltb_ge. destruct s; simpl; split; (done || lia). Qed.

Lemma parseObject_nil (d : ITEquipmentFormValues) :
  parseObject itEquipmentFormSchema d = [] ↔ raw_lengths_ok d.
Proof.
  rewrite parseObject_eq. unfold raw_lengths_ok.
  rewrite <- !ltb_1_nonempty, <- (Nat.ltb_ge (length (name d)) 2).
  split_checks; simpl; split; try done; intros H; decompose [and] H; done.
Qed.

Lemma valid_raw_lengths (d : ITEquipmentFormValues) : valid d ↔ raw_lengths_ok d.
Proof. by rewrite valid_parseObject, parseObject_nil. Qed.

Lemma isValid_valid (c : Control) : isValid resolver c = true ↔ valid (_formValues c).
Proof.
  unfold isValid, isEmptyObject. rewrite bool_decide_eq_true.
  by rewrite resolver_errors_empty, valid_parseObject.
Qed.

Lemma accepts_length (f : Field) (d : ITEquipmentFormValues) :
  accepts f d ↔ min_value (get f itEquipmentFormSchema) ≤ length (get f d).
Proof.
  unfold accepts. rewrite resolver_errors_lookup.
  destruct (Nat.ltb_spec (length (get f d)) (min_value (get f itEquipmentFormSchema)));
    split; (done || lia).
Qed.

Lemma valid_accepts (d : ITEquipmentFormValues) : valid d ↔ ∀ f, accepts f d.
Proof.
  rewrite valid_raw_lengths. unfold raw_lengths_ok. split.
  - intros (?&?&?&?&?&?) f. apply accepts_length.
    destruct f; simpl; try done;
      match goal with H : ?s ≠ [] |- 1 ≤ length ?s => destruct s; [done|simpl; lia] end.
  - intros H.
    pose proof (proj1 (accepts_length Name d) (H Name)).
    pose proof (proj1 (accepts_length Category d) (H Category)).
    pose proof (proj1 (accepts_length TotalQuantity d) (H TotalQuantity)).
    pose proof (proj1 (accepts_length Model d) (H Model)).
    pose proof (proj1 (accepts_length Location d) (H Location)).
    pose proof (proj1 (accepts_length DateAcquired d) (H DateAcquired)).
    simpl in *. repeat split; try done; intros E; rewrite E in *; simpl in *; lia.
Qed.

(** ** The schema and the constraints of the data model *)

(** C1 (as the claim states it, refuted): the schema accepts the name
    [" A"], whose length is 2, although its length after trimming is 1. *)
Lemma C1_name_padded_accepted :
  accepts Name padded_name ∧ length (trim (name padded_name)) = 1.
Proof. split; [|reflexivity]. apply accepts_length. simpl. lia. Qed.

(** C1 (amended): the schema accepts the name of a draft if and only if
    the length of the name as typed, in UTF-16 code units and without any
    trimming, is at least 2.  A name of length at least 2 after trimming is
    therefore accepted. *)
Theorem C1_name_accepted_iff_raw_length :
  ∀ d : ITEquipmentFormValues,
    (accepts Name d ↔ 2 ≤ length (name d)) ∧
    (spec_constraint Name d → accepts Name d).
Proof.
  intros d. split; [apply (accepts_length Name)|].
  simpl. intros H. apply (accepts_length Name). simpl.
  pose proof (trim_length (name d)). lia.
Qed.

(** C2 (as the claim states it, refuted): the schema accepts a category,
    a quantity, a model and a location of one space, each of which is
    empty after trimming. *)
Lemma C2_blank_fields_accepted :
  accepts Category blank_category ∧ trim (category blank_category) = [] ∧
  accepts TotalQuantity (set TotalQuantity (lit " ") dell_laptop) ∧
  accepts Model (set Model (lit " ") dell_laptop) ∧
  accepts Location (set Location (lit " ") dell_laptop) ∧
  trim (lit " ") = [].
Proof. repeat split; try reflexivity; apply accepts_length; simpl; lia. Qed.

(** C2 (amended): the schema accepts each of the category, totalQuantity,
    model and location fields if and only if the field as typed, without
    any trimming, is non-empty.  A field that is non-empty after trimming
    is therefore accepted. *)
Theorem C2_text_fields_accepted_iff_nonempty :
  ∀ d : ITEquipmentFormValues,
    (accepts Category d ↔ category d ≠ []) ∧
    (accepts TotalQuantity d ↔ totalQuantity d ≠ []) ∧
    (accepts Model d ↔ model d ≠ []) ∧
    (accepts Location d ↔ location d ≠ []) ∧
    (∀ f, f ∈ [Category; TotalQuantity; Model; Location] →
          spec_constraint f d → accepts f d).
Proof.
  assert (G : ∀ (f : Field) (d : ITEquipmentFormValues),
             min_value (get f itEquipmentFormSchema) = 1 →
             accepts f d ↔ get f d ≠ []).
  { intros f d E. rewrite accepts_length, E.
    destruct (get f d); simpl; split; (done || lia). }
  intros d.
  split; [by apply (G Category)|]. split; [by apply (G TotalQuantity)|].
  split; [by apply (G Model)|]. split; [by apply (G Location)|].
  intros f Hf Hc.
  assert (E : min_value (get f itEquipmentFormSchema) = 1 ∧
              spec_constraint f d = (trim (get f d) ≠ [])).
  { rewrite !elem_of_cons, elem_of_nil in Hf.
    decompose [or] Hf; subst; try done. }
  destruct E as [E1 E2]. apply G; [done|]. rewrite E2 in Hc.
  by apply trim_nonempty.
Qed.

(** C3 (as the claim states it, refuted): with no submission in flight the
    submit control is enabled on the draft whose name is [" A"], which
    violates the name constraint of the data model. *)
Lemma C3_enabled_on_padded_name :
  _formValues (form (typed padded_name)) = padded_name ∧
  disabled (submitButton (render false (form (typed padded_name)))) = false ∧
  ¬ spec_constraint Name padded_name.
Proof. split; [reflexivity|]. split; [reflexivity|]. vm_compute. lia. Qed.

(** C3 (amended): with no submission in flight the submit control is
    enabled if and only if the draft passes the schema, that is, the name
    as typed has length at least 2 and each of the other five fields as
    typed is non-empty; violating any one of these disables it.  A draft
    that satisfies the six constraints of the data model is enabled. *)
Theorem C3_submit_enabled_iff_schema :
  ∀ form : Control,
    (disabled (submitButton (render false form)) = false ↔
       raw_lengths_ok (_formValues form)) ∧
    (spec_submittable (_formValues form) →
       disabled (submitButton (render false form)) = false).
Proof.
  intros c.
  assert (G : disabled (submitButton (render false c)) = false ↔
              raw_lengths_ok (_formValues c)).
  { cbn [render submitButton disabled orb].
    rewrite negb_false_iff, isValid_valid. apply valid_raw_lengths. }
  split; [done|]. intros H. apply G.
  pose proof (H Name) as Hn. pose proof (H Category) as Hc.
  pose proof (H TotalQuantity) as Hq. pose proof (H Model) as Hm.
  pose proof (H Location) as Hl. pose proof (H DateAcquired) as Hd.
  simpl in *. pose proof (trim_length (name (_formValues c))).
  repeat split; try done; try (by apply trim_nonempty). lia.
Qed.

(** ** Sanitisation *)

(** C4: the sanitized draft handed to [onSubmit] has each of the five text
    fields equal to the trimmed input, the date as it was, and the empty
    string wherever the input field is [undefined]. *)
Theorem C4_sanitized_values :
  ∀ values : Values value,
    handleSubmit values = [onSubmit (sanitizedValues values)] ∧
    ∀ f, get f (sanitizedValues values) =
           match get f values with
           | undefined => []
           | str s => match f with DateAcquired => s | _ => trim s end
           end.
Proof.
  intros v. split; [done|].
  intros f. destruct f; simpl; rewrite ?or_empty_opt_trim; try done.
  destruct (dateAcquired v); [done|apply or_empty_str].
Qed.

(** ** Submission *)

Lemma resolver_values (d : ITEquipmentFormValues) :
  errors (resolver d) = ∅ → values (resolver d) = vmap str d.
Proof.
  intros H. apply resolver_errors_empty in H.
  unfold resolver, zodResolver, safeParse. by rewrite H.
Qed.

(** The submit event calls [onSubmit] once, with the sanitized draft, when
    the draft passes the schema, and not at all otherwise. *)
Lemma formSubmit_calls (w : World) :
  calls (formSubmit w) =
    calls w ++
    (if isValid resolver (form w)
     then [onSubmit (sanitizedValues (vmap str (_formValues (form w))))]
     else []).
Proof.
  unfold formSubmit, HookForm.handleSubmit, isValid.
  destruct (isEmptyObject _) eqn:E; simpl; [|done].
  apply bool_decide_eq_true in E. by rewrite (resolver_values _ E).
Qed.

Lemma formSubmit_defaults (w : World) :
  _defaultValues (form (formSubmit w)) = _defaultValues (form w).
Proof.
  unfold formSubmit, HookForm.handleSubmit. by destruct (isEmptyObject _).
Qed.

Lemma step_defaults (isLoading : bool) (e : Event) (w : World) :
  _defaultValues (form (step isLoading e w)) = _defaultValues (form w).
Proof.
  destruct e; simpl; try done.
  - by destruct isLoading.
  - destruct (isLoading || _); [done|apply formSubmit_defaults].
  - apply formSubmit_defaults.
Qed.

Lemma run_defaults (es : list (bool * Event)) (w : World) :
  _defaultValues (form (run es w)) = _defaultValues (form w).
Proof.
  revert w. induction es as [|[b e] es IH]; intros w; [done|].
  unfold run in *. simpl. rewrite IH. apply step_defaults.
Qed.

(** Every event leaves the earlier calls in place and adds at most the
    call of a submit event. *)
Lemma step_calls (isLoading : bool) (e : Event) (w : World) :
  calls (step isLoading e w) = calls w ∨
  (valid (_formValues (form w)) ∧
   calls (step isLoading e w) =
     calls w ++ [onSubmit (sanitizedValues (vmap str (_formValues (form w))))]).
Proof.
  assert (G : calls (formSubmit w) = calls w ∨
    (valid (_formValues (form w)) ∧
     calls (formSubmit w) =
       calls w ++ [onSubmit (sanitizedValues (vmap str (_formValues (form w))))])).
  { rewrite formSubmit_calls. destruct (isValid resolver (form w)) eqn:E.
    - right. split; [by apply isValid_valid|done].
    - left. by rewrite app_nil_r. }
  destruct e; simpl; try (by left); try done.
  - left. by destruct isLoading.
  - destruct (isLoading || _); [by left|done].
Qed.

(** Whatever happens to the form, every call of [onSubmit] carries the
    sanitized form of a draft that passed the schema. *)
Lemma run_calls_from_valid (es : list (bool * Event)) (w : World) (c : Call) :
  c ∈ calls (run es w) →
  c ∈ calls w ∨ ∃ d, valid d ∧ c = onSubmit (sanitizedValues (vmap str d)).
Proof.
  revert w. induction es as [|[b e] es IH]; intros w; [by left|].
  unfold run in *. simpl. intros H. apply IH in H as [H|H]; [|by right].
  destruct (step_calls b e w) as [E|[Hv E]]; rewrite E in H; [by left|].
  apply elem_of_app in H as [H|H]; [by left|].
  apply list_elem_of_singleton in H. right. eauto.
Qed.

(** The valid draft of the specification: the submit button is enabled,
    and a click on it calls [onSubmit] once with the same values. *)
Example dell_laptop_submits :
  disabled (submitButton (render false (form (typed dell_laptop)))) = false ∧
  calls (step false ClickSubmit (typed dell_laptop)) = [onSubmit dell_laptop].
Proof. split; reflexivity. Qed.

(** C5 (as the claim states it, refuted): [onSubmit] is invoked with a
    draft that fails validation.  The user types the name [" A"], which the
    schema accepts, and clicks the submit button; [onSubmit] receives the
    draft whose name is the single character A, which the schema rejects. *)
Lemma C5_onSubmit_invoked_with_rejected_draft :
  valid (_formValues (form (typed padded_name))) ∧
  calls (step false ClickSubmit (typed padded_name)) = [onSubmit short_name] ∧
  ¬ valid short_name ∧
  ¬ accepts Name short_name.
Proof.
  split; [reflexivity|]. split; [reflexivity|].
  split; intros H; vm_compute in H; discriminate H.
Qed.

(** C5 (amended): [onSubmit] is never invoked while the current draft fails
    validation: if the current draft violates a constraint of the schema, no
    event makes the form call [onSubmit], neither a click on the submit
    button nor the submit event of the form itself.  An event that does call
    [onSubmit] calls it once, the current draft passing the schema, with the
    sanitized form of that draft (which is not validated again). *)
Theorem C5_submission_gated_on_current_draft :
  ∀ (isLoading : bool) (e : Event) (w : World),
    (∀ f, ¬ accepts f (_formValues (form w)) →
          calls (step isLoading e w) = calls w) ∧
    (calls (step isLoading e w) = calls w ∨
     valid (_formValues (form w)) ∧
     calls (step isLoading e w) =
       calls w ++
       [onSubmit (sanitizedValues (vmap str (_formValues (form w))))]).
Proof.
  intros b e w. split; [|apply step_calls].
  intros f Hf.
  destruct (step_calls b e w) as [E|[Hv _]]; [done|].
  exfalso. apply Hf. by apply valid_accepts.
Qed.

(** C5 (amended) at the draft whose name is the single character A: the
    schema rejects the name and the submit event calls nothing. *)
Lemma C5_submission_gated_on_current_draft_witness :
  ¬ accepts Name (_formValues (form (typed short_name))) ∧
  calls (step false FormSubmit (typed short_name)) = calls (typed short_name).
Proof.
  assert (H : ¬ accepts Name (_formValues (form (typed short_name)))).
  { intros H. vm_compute in H. discriminate H. }
  split; [exact H|].
  exact (proj1 (C5_submission_gated_on_current_draft false FormSubmit
                  (typed short_name)) Name H).
Defined.

(** C6: sanitisation does not preserve validity.  The draft whose name is
    a space followed by one character passes the schema; the user who typed
    it can submit, and [onSubmit] then receives a draft whose name has one
    character, for which the schema reports the name error. *)
Theorem C6_sanitized_draft_can_fail_schema :
  ∃ d : ITEquipmentFormValues,
    name d = lit " A" ∧
    valid d ∧
    _formValues (form (typed d)) = d ∧
    calls (step false ClickSubmit (typed d)) =
      [onSubmit (sanitizedValues (vmap str d))] ∧
    name (sanitizedValues (vmap str d)) = lit "A" ∧
    ¬ accepts Name (sanitizedValues (vmap str d)) ∧
    errors (resolver (sanitizedValues (vmap str d))) !! key Name =
      Some "Name must be at least 2 characters".
Proof.
  exists padded_name. repeat split; try reflexivity.
  intros H. vm_compute in H. discriminate H.
Qed.

(** ** Field errors *)

(** C7: for a draft whose name is the single character A, whatever the
    other fields, validation reports the message of the name check under
    the key of the name field, every reported error is keyed by one of the
    six fields (none is global), the message shows under the name input
    once the user typed the name, the submit button is disabled and no
    submit event calls [onSubmit]. *)
Theorem C7_single_character_name :
  ∀ d : ITEquipmentFormValues,
    name d = lit "A" →
    errors (resolver d) !! "name" = Some "Name must be at least 2 characters" ∧
    errors (resolver d) !! "root" = None ∧
    (∀ k m, errors (resolver d) !! k = Some m → ∃ f, k = key f) ∧
    (∀ isLoading w,
       name (messages (render isLoading
         (form (step isLoading (InputChange Name (lit "A")) w)))) =
         Some "Name must be at least 2 characters") ∧
    (∀ isLoading w,
       _formValues (form w) = d →
       disabled (submitButton (render isLoading (form w))) = true ∧
       step isLoading ClickSubmit w = w ∧
       calls (step isLoading FormSubmit w) = calls w).
Proof.
  intros d Hd.
  assert (Hname : errors (resolver d) !! "name" =
                    Some "Name must be at least 2 characters").
  { change "name" with (key Name). rewrite resolver_errors_lookup.
    simpl. by rewrite Hd. }
  assert (Hkeys : ∀ k m, errors (resolver d) !! k = Some m → ∃ f, k = key f).
  { intros k m H. apply resolver_errors_keys in H as (f & -> & _). eauto. }
  split; [done|]. split.
  { destruct (errors (resolver d) !! "root") eqn:E; [|done].
    apply Hkeys in E as [f E]. by destruct f. }
  split; [done|]. split.
  { intros b w. cbn [step form render messages name onChange formErrors].
    rewrite resolver_errors_lookup.
    cbn [get set name itEquipmentFormSchema min_value min_message].
    change (length (lit "A") <? 2)%nat with true. cbv iota.
    apply lookup_insert_eq. }
  intros b w Hw.
  assert (Hinv : isValid resolver (form w) = false).
  { apply not_true_is_false. rewrite isValid_valid, Hw, valid_accepts.
    intros H. specialize (H Name). unfold accepts in H.
    change (key Name) with "name" in H. by rewrite Hname in H. }
  split; [|split].
  - cbn [render submitButton disabled]. rewrite Hinv. by destruct b.
  - cbn [step render submitButton disabled]. rewrite Hinv. by destruct b.
  - cbn [step]. rewrite formSubmit_calls, Hinv. by rewrite app_nil_r.
Qed.

(** C7 at the specification's draft with the name replaced by A. *)
Lemma C7_single_character_name_witness :
  name short_name = lit "A" ∧
  errors (resolver short_name) !! "name" = Some "Name must be at least 2 characters".
Proof.
  split; [reflexivity|].
  exact (proj1 (C7_single_character_name short_name eq_refl)).
Defined.

(** ** The buttons while a submission is in flight *)

(** C8: while [isLoading] is true both buttons are disabled whatever the
    draft, and clicking either does nothing; the submit button reads
    "Creating..." then, and "Create Equipment" when [isLoading] is false. *)
Theorem C8_loading_disables_buttons :
  ∀ w : World,
    disabled (resetButton (render true (form w))) = true ∧
    disabled (submitButton (render true (form w))) = true ∧
    label (submitButton (render true (form w))) = "Creating..." ∧
    label (submitButton (render false (form w))) = "Create Equipment" ∧
    step true ClickReset w = w ∧
    step true ClickSubmit w = w.
Proof. intros w. repeat split. Qed.

(** ** Defaults and reset *)

Lemma formDefaultValues_get (props : ITEquipmentFormProps) (f : Field) :
  get f (formDefaultValues props) = supplied_or_empty (defaultValues props) f.
Proof.
  unfold formDefaultValues, supplied_or_empty.
  destruct (defaultValues props) as [partial|]; simpl.
  - destruct f; simpl;
      match goal with |- or_empty ?v = _ => destruct v end;
      first [ done | apply or_empty_str ].
  - by destruct f.
Qed.

(** C9: after any sequence of events (edits, clicks, submissions) a click
    on Reset, no submission being in flight, puts every field back to its
    initial default, which is the caller's value or the empty string; while
    a submission is in flight the Reset button is disabled and a click on
    it changes nothing. *)
Theorem C9_reset_restores_defaults :
  ∀ (props : ITEquipmentFormProps) (es : list (bool * Event)),
    let w := run es (start props) in
    _formValues (form (step false ClickReset w)) = _formValues (mount props) ∧
    (∀ f, get f (_formValues (form (step false ClickReset w))) =
            supplied_or_empty (defaultValues props) f) ∧
    disabled (resetButton (render true (form w))) = true ∧
    step true ClickReset w = w.
Proof.
  intros props es w.
  assert (E : _formValues (form (step false ClickReset w)) = formDefaultValues props).
  { cbn [step render resetButton disabled form reset _formValues].
    unfold w. by rewrite run_defaults. }
  split; [done|]. split; [|done].
  intros f. rewrite E. apply formDefaultValues_get.
Qed.

(** C10: the draft at mount takes, for each of the six fields, the
    caller's default when one was supplied and the empty string
    otherwise. *)
Theorem C10_initial_draft_merges_defaults :
  ∀ (props : ITEquipmentFormProps) (f : Field),
    get f (_formValues (form (start props))) =
      supplied_or_empty (defaultValues props) f.
Proof. intros props f. apply formDefaultValues_get. Qed.

(** ** More about trimming *)

Lemma trimStart_starts_clean (s : jsstring) : starts_clean (trimStart s) = true.
Proof.
  induction s as [|c s IH]; [done|]. simpl.
  destruct (isStrWhiteSpaceChar c) eqn:E; [done|]. simpl. by rewrite E.
Qed.

Lemma trimStart_id (s : jsstring) : starts_clean s = true → trimStart s = s.
Proof.
  destruct s as [|c s]; [done|]. simpl.
  by destruct (isStrWhiteSpaceChar c).
Qed.

(** [trimStart] drops a prefix. *)
Lemma trimStart_suffix (s : jsstring) : ∃ p, s = p ++ trimStart s.
Proof.
  induction s as [|c s [p IH]]; [by exists []|]. simpl.
  destruct (isStrWhiteSpaceChar c).
  - exists (c :: p). simpl. by rewrite <- IH.
  - by exists [].
Qed.

(** [trimEnd] drops a suffix. *)
Lemma trimEnd_prefix (s : jsstring) : ∃ q, s = trimEnd s ++ q.
Proof.
  destruct (trimStart_suffix (reverse s)) as [p Hp].
  exists (reverse p). unfold trimEnd. rewrite <- reverse_app, <- Hp.
  by rewrite reverse_involutive.
Qed.

Lemma trimEnd_ends_clean (s : jsstring) : ends_clean (trimEnd s) = true.
Proof.
  unfold ends_clean, trimEnd. rewrite reverse_involutive.
  apply trimStart_starts_clean.
Qed.

Lemma trimEnd_id (s : jsstring) : ends_clean s = true → trimEnd s = s.
Proof.
  unfold ends_clean, trimEnd. intros H.
  by rewrite (trimStart_id _ H), reverse_involutive.
Qed.

Lemma trimEnd_starts_clean (s : jsstring) :
  starts_clean s = true → starts_clean (trimEnd s) = true.
Proof.
  destruct (trimEnd_prefix s) as [q Hq]. intros H.
  destruct (trimEnd s) as [|c t]; [done|].
  rewrite Hq in H. exact H.
Qed.

Lemma trim_trimmed (s : jsstring) : trimmed (trim s) = true.
Proof.
  unfold trimmed, trim. apply andb_true_intro. split.
  - apply trimEnd_starts_clean, trimStart_starts_clean.
  - apply trimEnd_ends_clean.
Qed.

Lemma trim_id (s : jsstring) : trimmed s = true → trim s = s.
Proof.
  unfold trimmed, trim. intros [H1 H2]%andb_prop.
  by rewrite (trimStart_id _ H1), (trimEnd_id _ H2).
Qed.

Lemma trim_idempotent (s : jsstring) : trim (trim s) = trim s.
Proof. apply trim_id, trim_trimmed. Qed.

Lemma trimStart_nil (s : jsstring) :
  trimStart s = [] ↔ forallb isStrWhiteSpaceChar s = true.
Proof.
  induction s as [|c s IH]; [done|]. simpl.
  destruct (isStrWhiteSpaceChar c); simpl; [done|]. split; done.
Qed.

Lemma forallb_reverse (s : jsstring) :
  forallb isStrWhiteSpaceChar (reverse s) = forallb isStrWhiteSpaceChar s.
Proof.
  induction s as [|c s IH]; [done|].
  rewrite reverse_cons, forallb_app, IH. simpl.
  rewrite andb_true_r. apply andb_comm.
Qed.

Lemma trimEnd_nil (s : jsstring) :
  trimEnd s = [] ↔ forallb isStrWhiteSpaceChar s = true.
Proof.
  unfold trimEnd. rewrite <- forallb_reverse, <- trimStart_nil.
  split; intros H.
  - apply (f_equal reverse) in H. by rewrite reverse_involutive in H.
  - by rewrite H.
Qed.

(** The trimmed string is empty exactly when the string is all white
    space. *)
Lemma trim_nil (s : jsstring) :
  trim s = [] ↔ forallb isStrWhiteSpaceChar s = true.
Proof.
  unfold trim. rewrite trimEnd_nil. split; intros H.
  - pose proof (trimStart_starts_clean s) as Hc.
    destruct (trimStart s) as [|c t] eqn:E; [by apply trimStart_nil|].
    simpl in H, Hc. apply andb_prop in H as [H _]. by rewrite H in Hc.
  - apply trimStart_nil in H. by rewrite H.
Qed.

(** ** What sanitisation guarantees *)

Lemma sanitizedValues_str_get (d : ITEquipmentFormValues) (f : Field) :
  get f (sanitizedValues (vmap str d)) =
    match f with DateAcquired => dateAcquired d | _ => trim (get f d) end.
Proof. destruct f; simpl; apply or_empty_str. Qed.

Lemma values_eq {A} (v1 v2 : Values A) : (∀ f, get f v1 = get f v2) → v1 = v2.
Proof.
  intros H. destruct v1, v2.
  pose proof (H Name). pose proof (H Category). pose proof (H TotalQuantity).
  pose proof (H Model). pose proof (H Location). pose proof (H DateAcquired).
  simpl in *. by subst.
Qed.

(** X1: sanitising is idempotent: handing a sanitized draft to
    [handleSubmit] again yields the same draft, whatever the first input
    was (strings or [undefined]). *)
Theorem X1_sanitizedValues_idempotent :
  ∀ values : Values value,
    sanitizedValues (vmap str (sanitizedValues values)) = sanitizedValues values.
Proof.
  intros v. apply values_eq. intros f. rewrite sanitizedValues_str_get.
  destruct f; simpl; try done;
    rewrite or_empty_opt_trim;
    match goal with |- context [match ?x with _ => _ end] => destruct x end;
    first [ done | apply trim_idempotent ].
Qed.

(** X2: the drafts sanitisation leaves unchanged are exactly those whose
    five text fields have white space at neither end; the date never
    matters. *)
Theorem X2_sanitizedValues_fixed_points :
  ∀ d : ITEquipmentFormValues,
    sanitizedValues (vmap str d) = d ↔
    Forall (λ f, trimmed (get f d) = true) text_fields.
Proof.
  intros d. split.
  - intros H. apply Forall_forall. intros f Hf. rewrite <- H.
    rewrite sanitizedValues_str_get.
    unfold text_fields in Hf. rewrite !elem_of_cons, elem_of_nil in Hf.
    decompose [or] Hf; subst; try done; apply trim_trimmed.
  - intros H. apply values_eq. intros f. rewrite sanitizedValues_str_get.
    rewrite Forall_forall in H.
    destruct f; try done; apply trim_id, H; unfold text_fields;
      rewrite !elem_of_cons; tauto.
Qed.

(** X3: every text field of the draft handed to [onSubmit] has white
    space at neither end, and it is the empty string exactly when the
    input field was [undefined] or consisted of white space only. *)
Theorem X3_sanitized_text_fields :
  ∀ values : Values value,
    Forall (λ f,
      trimmed (get f (sanitizedValues values)) = true ∧
      (get f (sanitizedValues values) = [] ↔
         match get f values with
         | undefined => True
         | str s => forallb isStrWhiteSpaceChar s = true
         end)) text_fields.
Proof.
  intros v. apply Forall_forall. intros f Hf.
  unfold text_fields in Hf. rewrite !elem_of_cons, elem_of_nil in Hf.
  decompose [or] Hf; subst; try done;
    simpl; rewrite or_empty_opt_trim;
    match goal with |- context [match ?x with _ => _ end] => destruct x end;
    (split; [first [ done | apply trim_trimmed ]
            | first [ done | apply trim_nil ]]).
Qed.

(** X4: the sanitized form of a draft passes the schema if and only if the
    draft itself has a name of length at least 2 after trimming, a
    category, a quantity, a model and a location that are non-empty after
    trimming, and a non-empty date. *)
Theorem X4_sanitized_valid_iff_trimmed_constraints :
  ∀ d : ITEquipmentFormValues,
    valid (sanitizedValues (vmap str d)) ↔
    2 ≤ length (trim (name d)) ∧ trim (category d) ≠ [] ∧
    trim (totalQuantity d) ≠ [] ∧ trim (model d) ≠ [] ∧
    trim (location d) ≠ [] ∧ dateAcquired d ≠ [].
Proof.
  intros d. rewrite valid_raw_lengths. unfold raw_lengths_ok.
  pose proof (sanitizedValues_str_get d) as E.
  rewrite (E Name : name (sanitizedValues (vmap str d)) = trim (name d)).
  rewrite (E Category : category (sanitizedValues (vmap str d)) = trim (category d)).
  rewrite (E TotalQuantity :
             totalQuantity (sanitizedValues (vmap str d)) = trim (totalQuantity d)).
  rewrite (E Model : model (sanitizedValues (vmap str d)) = trim (model d)).
  rewrite (E Location : location (sanitizedValues (vmap str d)) = trim (location d)).
  rewrite (E DateAcquired : dateAcquired (sanitizedValues (vmap str d)) = dateAcquired d).
  done.
Qed.

(** ** What the caller's [onSubmit] can rely on *)

Lemma formSubmit_values (w : World) :
  _formValues (form (formSubmit w)) = _formValues (form w).
Proof.
  unfold formSubmit, HookForm.handleSubmit. by destruct (isEmptyObject _).
Qed.

Lemma clickSubmit_valid (w : World) :
  valid (_formValues (form w)) → step false ClickSubmit w = formSubmit w.
Proof.
  intros H. apply isValid_valid in H.
  cbn [step render submitButton disabled orb]. by rewrite H.
Qed.

(** X5: whatever the caller's defaults and whatever happens to the form
    (edits, clicks, submit events, with or without a submission in flight),
    every draft [onSubmit] receives is the sanitized form of a draft that
    passed the schema; its date is non-empty and its five text fields have
    white space at neither end. *)
Theorem X5_onSubmit_arguments :
  ∀ (props : ITEquipmentFormProps) (es : list (bool * Event))
    (v : ITEquipmentFormValues),
    onSubmit v ∈ calls (run es (start props)) →
    (∃ d, valid d ∧ v = sanitizedValues (vmap str d)) ∧
    dateAcquired v ≠ [] ∧
    Forall (λ f, trimmed (get f v) = true) text_fields.
Proof.
  intros props es v H.
  apply run_calls_from_valid in H as [H|(d & Hd & E)].
  { by apply elem_of_nil in H. }
  injection E as ->. split; [by exists d|]. split.
  - rewrite (sanitizedValues_str_get d DateAcquired : dateAcquired _ = dateAcquired d).
    apply valid_raw_lengths in Hd. unfold raw_lengths_ok in Hd. tauto.
  - apply Forall_forall. intros f Hf. rewrite sanitizedValues_str_get.
    unfold text_fields in Hf. rewrite !elem_of_cons, elem_of_nil in Hf.
    decompose [or] Hf; subst; try done; apply trim_trimmed.
Qed.

(** X5 at the form in which the user typed the specification's draft and
    clicked the submit button. *)
Lemma X5_onSubmit_arguments_witness :
  onSubmit dell_laptop ∈
    calls (run (typing dell_laptop ++ [(false, ClickSubmit)])
               (start (mkProps false None))) ∧
  dateAcquired dell_laptop ≠ [].
Proof.
  assert (H : onSubmit dell_laptop ∈
    calls (run (typing dell_laptop ++ [(false, ClickSubmit)])
               (start (mkProps false None)))).
  { change (onSubmit dell_laptop ∈ [onSubmit dell_laptop]). left. }
  split; [exact H|].
  exact (proj1 (proj2 (X5_onSubmit_arguments _ _ _ H))).
Defined.

(** X6: submitting does not clear or change the draft, so the component
    itself does not prevent a second submission: two clicks on the enabled
    submit button call [onSubmit] twice with the same sanitized draft. *)
Theorem X6_submit_keeps_draft :
  ∀ w : World,
    valid (_formValues (form w)) →
    _formValues (form (step false ClickSubmit w)) = _formValues (form w) ∧
    calls (step false ClickSubmit (step false ClickSubmit w)) =
      calls w ++
      [onSubmit (sanitizedValues (vmap str (_formValues (form w))));
       onSubmit (sanitizedValues (vmap str (_formValues (form w))))].
Proof.
  intros w H.
  assert (E : _formValues (form (step false ClickSubmit w)) = _formValues (form w)).
  { rewrite (clickSubmit_valid _ H). apply formSubmit_values. }
  split; [done|].
  rewrite clickSubmit_valid by (by rewrite E).
  rewrite formSubmit_calls.
  rewrite (proj2 (isValid_valid _)) by (by rewrite E).
  rewrite E, (clickSubmit_valid _ H), formSubmit_calls.
  rewrite (proj2 (isValid_valid _) H). by rewrite <- app_assoc.
Qed.

(** X6 at the form in which the user typed the specification's draft. *)
Lemma X6_submit_keeps_draft_witness :
  valid (_formValues (form (typed dell_laptop))) ∧
  calls (step false ClickSubmit (step false ClickSubmit (typed dell_laptop))) =
    [onSubmit dell_laptop; onSubmit dell_laptop].
Proof.
  assert (H : valid (_formValues (form (typed dell_laptop)))) by reflexivity.
  split; [exact H|].
  exact (proj2 (X6_submit_keeps_draft (typed dell_laptop) H)).
Defined.

(** ** Mount and reset *)

Lemma render_messages_get (isLoading : bool) (c : Control) (f : Field) :
  get f (messages (render isLoading c)) = formErrors c !! key f.
Proof. by destruct f. Qed.

(** X7: at mount and after every click on the enabled Reset button no
    message is shown, no call is made, and the submit button is enabled
    exactly when the defaults handed to [useForm] pass the schema; it is
    disabled as soon as the caller left one field out or empty. *)
Theorem X7_reset_submit_enabled :
  ∀ (props : ITEquipmentFormProps) (es : list (bool * Event)) (isLoading : bool),
    let w := run es (start props) in
    let w' := step false ClickReset w in
    (∀ f, get f (messages (render isLoading (form w'))) = None) ∧
    (∀ f, get f (messages (render isLoading (form (start props)))) = None) ∧
    calls w' = calls w ∧
    (disabled (submitButton (render false (form w'))) = false ↔
       valid (formDefaultValues props)) ∧
    (disabled (submitButton (render false (form (start props)))) = false ↔
       valid (formDefaultValues props)) ∧
    ((∃ f, supplied_or_empty (defaultValues props) f = []) →
       disabled (submitButton (render false (form w'))) = true).
Proof.
  intros props es b w w'.
  assert (E : _formValues (form w') = formDefaultValues props).
  { unfold w', w. cbn [step render resetButton disabled form reset _formValues].
    by rewrite run_defaults. }
  assert (G : ∀ c, disabled (submitButton (render false c)) = false ↔
                   valid (_formValues c)).
  { intros c. cbn [render submitButton disabled orb].
    by rewrite negb_false_iff, isValid_valid. }
  split; [intros f; by rewrite render_messages_get|].
  split; [intros f; by rewrite render_messages_get|].
  split; [done|]. split; [by rewrite G, E|]. split; [by rewrite G|].
  intros [f Hf]. apply not_false_is_true. rewrite G, E. intros Hv.
  rewrite valid_accepts in Hv. specialize (Hv f).
  apply accepts_length in Hv. rewrite formDefaultValues_get, Hf in Hv.
  destruct f; simpl in Hv; lia.
Qed.

(** ** The errors validation reports *)

Lemma key_inj (f g : Field) : key f = key g → f = g.
Proof. destruct f, g; simpl; intros H; first [ done | discriminate H ]. Qed.

Lemma fields_NoDup : NoDup fields.
Proof.
  unfold fields.
  repeat (apply NoDup_cons_2;
          [rewrite ?elem_of_cons, elem_of_nil; intros H; decompose [or] H; done|]).
  apply NoDup_nil_2.
Qed.

Lemma fields_all (f : Field) : f ∈ fields.
Proof. unfold fields. rewrite !elem_of_cons. destruct f; tauto. Qed.

Lemma resolver_errors_lookup_Some (d : ITEquipmentFormValues) (k m : string) :
  errors (resolver d) !! k = Some m ↔
  ∃ f, k = key f ∧ m = min_message (get f itEquipmentFormSchema) ∧
       violated f d = true.
Proof.
  split.
  - intros H. destruct (resolver_errors_keys _ _ _ H) as (f & -> & ->).
    exists f. split; [done|]. split; [done|].
    rewrite resolver_errors_lookup in H. unfold violated.
    by destruct (_ <? _)%nat.
  - intros (f & -> & -> & Hv). rewrite resolver_errors_lookup.
    unfold violated in Hv. by rewrite Hv.
Qed.

Lemma violations_lookup_Some (d : ITEquipmentFormValues) (k m : string) :
  violations d !! k = Some m ↔
  ∃ f, k = key f ∧ m = min_message (get f itEquipmentFormSchema) ∧
       violated f d = true.
Proof.
  unfold violations. rewrite <- elem_of_list_to_map.
  - rewrite list_elem_of_fmap. split.
    + intros (f & E & Hf). injection E as -> ->.
      apply list_elem_of_filter in Hf as [Hv _]. by exists f.
    + intros (f & -> & -> & Hv). exists f. split; [done|].
      apply list_elem_of_filter. split; [done|apply fields_all].
  - rewrite <- list_fmap_compose.
    apply NoDup_fmap_2_strong; [|apply NoDup_filter, fields_NoDup].
    intros f g _ _ H. by apply key_inj.
Qed.

(** X8: validation reports every violated field at once: the errors are
    exactly one entry per field that is shorter than its minimum, under the
    key of the field and with the message of its check, and nothing else. *)
Theorem X8_errors_are_the_violations :
  ∀ d : ITEquipmentFormValues, errors (resolver d) = violations d.
Proof.
  intros d. apply map_eq. intros k. apply option_eq. intros m.
  by rewrite resolver_errors_lookup_Some, violations_lookup_Some.
Qed.

(** ** Editing a field *)

Lemma get_set_eq {A} (f : Field) (x : A) (v : Values A) : get f (set f x v) = x.
Proof. by destruct f. Qed.

Lemma get_set_ne {A} (f g : Field) (x : A) (v : Values A) :
  g ≠ f → get g (set f x v) = get g v.
Proof. by destruct f, g. Qed.

(** X9: a change event of one of the four plain text inputs (name,
    category, model, location) stores the value it delivers in its field
    and shows the message of that field exactly when that value is shorter
    than the field's minimum; the values and the messages of the other
    fields stay as they were, and nothing is submitted. *)
Theorem X9_edit_updates_one_field :
  ∀ (isLoading : bool) (w : World) (f : Field) (v : jsstring),
    f ∈ plain_text_inputs →
    let w' := step isLoading (InputChange f v) w in
    get f (inputs (render isLoading (form w'))) = v ∧
    get f (messages (render isLoading (form w'))) =
      (if (length v <? min_value (get f itEquipmentFormSchema))%nat
       then Some (min_message (get f itEquipmentFormSchema)) else None) ∧
    (∀ g, g ≠ f →
       get g (inputs (render isLoading (form w'))) =
         get g (inputs (render isLoading (form w))) ∧
       get g (messages (render isLoading (form w'))) =
         get g (messages (render isLoading (form w)))) ∧
    calls w' = calls w.
Proof.
  intros b w f v _ w'. unfold w'.
  cbn [step form calls render inputs onChange _formValues].
  split; [apply get_set_eq|]. split; [|split; [|done]].
  - rewrite render_messages_get. cbn [onChange formErrors].
    rewrite resolver_errors_lookup, get_set_eq.
    destruct (_ <? _)%nat; [apply lookup_insert_eq|apply lookup_delete_eq].
  - intros g Hg. split; [by apply get_set_ne|].
    rewrite !render_messages_get. cbn [onChange formErrors].
    assert (Hk : key f ≠ key g) by (intros E; by apply key_inj in E).
    destruct (errors _ !! key f);
      [by rewrite lookup_insert_ne|by rewrite lookup_delete_ne].
Qed.

(** X9 at the name input of the form in which the user typed the
    specification's draft: the name is changed to the single character A,
    and the name message shows. *)
Lemma X9_edit_updates_one_field_witness :
  Name ∈ plain_text_inputs ∧
  get Name (messages (render false
    (form (step false (InputChange Name (lit "A")) (typed dell_laptop))))) =
    Some "Name must be at least 2 characters".
Proof.
  assert (H : Name ∈ plain_text_inputs) by left.
  split; [exact H|].
  exact (proj1 (proj2 (X9_edit_updates_one_field false (typed dell_laptop)
                         Name (lit "A") H))).
Defined.

(** ** What validation does not look at *)

(** X10: the schema looks at the lengths of the fields and at nothing
    else, and it only bounds them from below: a draft whose fields are each
    at least as long as those of a draft that passes the schema passes it
    too, whatever the fields contain. *)
Theorem X10_validity_depends_on_lengths_only :
  ∀ d d' : ITEquipmentFormValues,
    (∀ f, length (get f d) ≤ length (get f d')) →
    valid d → valid d'.
Proof.
  intros d d' Hlen Hv. rewrite valid_accepts in *. intros f.
  specialize (Hv f). rewrite accepts_length in *.
  specialize (Hlen f). lia.
Qed.

(** X10 at the specification's draft and a draft of the same lengths whose
    quantity is not a number and whose date is not a date. *)
Lemma X10_validity_depends_on_lengths_only_witness :
  valid dell_laptop ∧
  valid {| name := lit "Dell Laptop"; category := lit "Laptop";
           totalQuantity := lit "x"; model := lit "Latitude 5520";
           location := lit "Office A"; dateAcquired := lit "not a date" |}.
Proof.
  assert (H : valid dell_laptop) by reflexivity.
  split; [exact H|].
  refine (X10_validity_depends_on_lengths_only dell_laptop _ _ H).
  intros f. destruct f; vm_compute; repeat constructor.
Defined.
